(** * ADKbot: the CopilotKit proxy route and the chat pages

    A shallow embedding of the four source files of the front-end:

    - [src/app/api/copilotkit/route.ts]: the server route (module [Route]);
    - the root layout (module [Layout]);
    - the page variant that reads [NEXT_PUBLIC_API_BASE_URL] (module [AltPage]);
    - the page variant that targets the local proxy path (module [ProxyPage]).

    The route is a program over the two calls it makes into the external
    runtime package; the pages are render functions from hook state to element
    trees. *)

From stdpp Require Import gmap strings list fin_maps.

Open Scope string_scope.
Open Scope list_scope.
Open Scope stdpp_scope.

(** ** The server route *)

Module Route.

(** [new HttpAgent({url})] *)
Record HttpAgent := { url : string }.

(** [new ExperimentalEmptyAdapter()]: an object without configuration. *)
Inductive ExperimentalEmptyAdapter := EmptyAdapter.

(** [new CopilotRuntime({agents})]: [agents] is a JS object used as a map
  from agent names to agents. *)
Record CopilotRuntime := { agents : gmap string HttpAgent }.

(** The option object given to [copilotRuntimeNextJSAppRouterEndpoint]. *)
Record EndpointOptions := {
  opt_runtime : CopilotRuntime;
  opt_serviceAdapter : ExperimentalEmptyAdapter;
  opt_endpoint : string
}.

(** Module-level constants, evaluated once when the module is loaded. *)
Definition serviceAdapter : ExperimentalEmptyAdapter := EmptyAdapter.

Definition runtime : CopilotRuntime :=
  {| agents := {[ "my_agent" := {| url := "https://adkbotbackend.onrender.com" |} ]} |}.

(** The module-level bindings of a loaded module instance. *)
Record Bindings := {
  b_serviceAdapter : ExperimentalEmptyAdapter;
  b_runtime : CopilotRuntime
}.

Definition module_load : Bindings :=
  {| b_serviceAdapter := serviceAdapter; b_runtime := runtime |}.

Section Program.
Context {Request Response Handler : Type}.

(** The calls the route makes into the external runtime package. The
    endpoint constructor answers with an object whose [handleRequest]
    member is the handler; [Handler] stands for that closure. *)
Inductive Call : Type -> Type :=
  | copilotRuntimeNextJSAppRouterEndpoint (o : EndpointOptions) : Call Handler
  | handleRequest (h : Handler) (req : Request) : Call Response.

(** Programs over these calls. *)
Inductive Prog (A : Type) : Type :=
  | Ret (a : A)
  | Vis {X : Type} (c : Call X) (k : X -> Prog A).

Inductive AnyCall : Type :=
  | any_call {X : Type} (c : Call X).

End Program.

Arguments Call : clear implicits.
Arguments Prog : clear implicits.
Arguments AnyCall : clear implicits.
Arguments Ret {Request Response Handler A} a.
Arguments Vis {Request Response Handler A X} c k.

Section Semantics.
Context {Request Response Handler : Type}.

Local Abbreviation Prog' := (Prog Request Response Handler).
Local Abbreviation Call' := (Call Request Response Handler).

Fixpoint bind {A B} (p : Prog' A) (f : A -> Prog' B) : Prog' B :=
  match p with
  | Ret a => f a
  | Vis c k => Vis c (fun x => bind (k x) f)
  end.

Definition call {X} (c : Call' X) : Prog' X := Vis c Ret.

#[export] Instance prog_ret : MRet Prog' := fun A a => Ret a.
#[export] Instance prog_bind : MBind Prog' := fun A B f p => bind p f.

(** [export const POST = async (req) => { ... return handleRequest(req); }]

    The bindings [runtime] and [serviceAdapter] are read from the module
    instance; the result of the [async] function is the outcome of the
    promise that [handleRequest(req)] returns. *)
Definition POST (m : Bindings) (req : Request) : Prog' Response :=
  h ← call (copilotRuntimeNextJSAppRouterEndpoint
              {| opt_runtime := b_runtime m;
                 opt_serviceAdapter := b_serviceAdapter m;
                 opt_endpoint := "/api/copilotkit" |});
  call (handleRequest h req).

(** *** Running a program against an implementation of the package *)

Context {World Error : Type}.

(** The outcome of a call or of a promise: rejected with an error, or
    fulfilled with a value. *)
Definition Outcome (A : Type) : Type := (Error + A)%type.

(** An implementation of the external package: each call acts on the
    world outside the module and either throws or answers. *)
Definition Impl : Type := forall X, Call' X -> World -> Outcome X * World.

(** JavaScript evaluation order with exceptions: a call that throws ends
    the program with that error (the source has no [try]); the log lists
    the calls made, in order. *)
Fixpoint run {A} (impl : Impl) (p : Prog' A) (w : World)
  : Outcome A * World * list (AnyCall Request Response Handler) :=
  match p with
  | Ret a => (inr a, w, [])
  | Vis c k =>
      match impl _ c w with
      | (inl e, w') => (inl e, w', [any_call c])
      | (inr x, w') =>
          let '(r, w'', log) := run impl (k x) w' in
          (r, w'', any_call c :: log)
      end
  end.

(** *** The server process *)

(** A process is a loaded module instance together with the world. *)
Record Process := { bindings : Bindings; world : World }.

Definition boot (w : World) : Process :=
  {| bindings := module_load; world := w |}.

(** The only operation the module exports is [POST]. Serving a request
    runs it; both bindings are [const] and the handler assigns to neither
    of them. *)
Definition serve (impl : Impl) (p : Process) (req : Request)
  : Outcome Response * Process :=
  let '(r, w', _) := run impl (POST (bindings p) req) (world p) in
  (r, {| bindings := bindings p; world := w' |}).

Definition serve_all (impl : Impl) (p : Process) (reqs : list Request) : Process :=
  foldl (fun p req => snd (serve impl p req)) p reqs.

End Semantics.

Arguments Outcome : clear implicits.
Arguments Impl : clear implicits.
Arguments Process : clear implicits.

(** *** The external runtime as the specification describes it *)

Section SpecRuntime.
Context {Request Response Error : Type}.

(** A call over the network: the address called and the payload sent. *)
Record Outbound := { to : string; payload : Request }.

(** Modelled from the spec: the request handler of the external runtime
    package ([@copilotkit/runtime], a dependency that is not part of the
    sources). The specification says of it that the proxy route "forwards
    the request, via the external runtime, to the remote agent HTTP
    endpoint", with the side effect of "a network call to the configured
    remote URL", and that the output is "whatever the external runtime/agent
    returns, proxied verbatim". So the handler sends the request it was given
    to the URL of each agent registered in the runtime it was built from and
    answers with what the remote answered; [remote] is the remote side and
    [unanswered] is the outcome when no agent is registered, which the
    specification leaves open. *)
Definition forward (remote : string -> Request -> Outcome Error Response)
    (unanswered : Outcome Error Response)
    (rt : CopilotRuntime) (req : Request) (net : list Outbound)
  : Outcome Error Response * list Outbound :=
  foldl (fun st na =>
           (remote (url (snd na)) req,
            snd st ++ [{| to := url (snd na); payload := req |}]))
        (unanswered, net) (map_to_list (agents rt)).

(** Modelled from the spec: the external package. The endpoint constructor
    keeps the options it was given and never throws; its handler is
    [forward] on the runtime among these options. The world is the list of
    network calls made so far. *)
Definition spec_runtime (remote : string -> Request -> Outcome Error Response)
    (unanswered : Outcome Error Response)
  : Impl Request Response EndpointOptions (list Outbound) Error :=
  fun X c =>
    match c in Call _ _ _ X return list Outbound -> Outcome Error X * list Outbound with
    | copilotRuntimeNextJSAppRouterEndpoint o => fun net => (inr o, net)
    | handleRequest h req => fun net => forward remote unanswered (opt_runtime h) req net
    end.

End SpecRuntime.

Arguments Outbound : clear implicits.

End Route.

(** ** The calls a server process makes over its requests *)

Module Calls.
Import Route.

Section Log.
Context {Request Response Handler World Error : Type}.

Local Abbreviation Log := (list (AnyCall Request Response Handler)).

(** The options of the endpoint constructions in a log, in order. *)
Definition constructed (log : Log) : list EndpointOptions :=
  omap (fun a =>
          match a with
          | any_call c =>
              match c with
              | copilotRuntimeNextJSAppRouterEndpoint o => Some o
              | handleRequest _ _ => None
              end
          end) log.

(** The requests given to a handler in a log, in order. *)
Definition handled (log : Log) : list Request :=
  omap (fun a =>
          match a with
          | any_call c =>
              match c with
              | copilotRuntimeNextJSAppRouterEndpoint _ => None
              | handleRequest _ req => Some req
              end
          end) log.

(** The calls made while a process serves requests one after the other, one
    invocation of [POST] per request. *)
Fixpoint calls_of (impl : Impl Request Response Handler World Error)
    (p : Process World) (reqs : list Request) : Log :=
  match reqs with
  | [] => []
  | req :: reqs' =>
      (run impl (POST (bindings p) req) (world p)).2
      ++ calls_of impl (serve impl p req).2 reqs'
  end.

End Log.

(** A package for trying the route: the endpoint constructor answers, every
    handler throws, and the world counts the handler calls. *)
Definition unreachable_package : Impl string string unit nat string :=
  fun X c =>
    match c in Call _ _ _ X return nat -> Outcome string X * nat with
    | copilotRuntimeNextJSAppRouterEndpoint _ => fun n => (inr tt, n)
    | handleRequest _ _ => fun n => (inl "remote agent unreachable", S n)
    end.

End Calls.

(** ** The runtime object as the package sees it: by reference *)

Module Shared.
Import Route.

Section Shared.
Context {Request Response Handler World Error : Type}.

(** Handler bodies over the module's runtime object. [route.ts] hands the
    object [runtime] to the package inside the option object, by reference,
    so a package call may change it; and code of the module could change it
    by an assignment ([runtime.agents[k] = v], [delete runtime.agents[k]]),
    which is the node [Assign]. *)
Inductive Body (A : Type) : Type :=
| Done (a : A)
| Pkg {X : Type} (c : Call Request Response Handler X) (k : X -> Body A)
| Assign (f : CopilotRuntime -> CopilotRuntime) (k : Body A).

Arguments Done {A} a.
Arguments Pkg {A X} c k.
Arguments Assign {A} f k.

(** The body of a program that only calls the package: it has no
    assignment. *)
Fixpoint body_of {A} (p : Prog Request Response Handler A) : Body A :=
  match p with
  | Ret a => Done a
  | Vis c k => Pkg c (fun x => body_of (k x))
  end.

(** A package that is handed the runtime object: each call acts on the
    object and on the world outside, and either throws or answers. *)
Definition SharedImpl : Type :=
  Impl Request Response Handler (CopilotRuntime * World) Error.

(** Running a body: a package call gets the object as it is now and leaves
    it as it likes; an assignment writes it; a call that throws ends the
    body. *)
Fixpoint exec {A} (impl : SharedImpl) (b : Body A) (rt : CopilotRuntime) (w : World)
  : Outcome Error A * (CopilotRuntime * World) :=
  match b with
  | Done a => (inr a, (rt, w))
  | Pkg c k =>
      match impl _ c (rt, w) with
      | (inl e, s) => (inl e, s)
      | (inr x, (rt', w')) => exec impl (k x) rt' w'
      end
  | Assign f k => exec impl k (f rt) w
  end.

(** A process: the runtime object of the loaded module, as it is now, and
    the world outside. The adapter object has no field to write. *)
Record Live := { live_runtime : CopilotRuntime; outside : World }.

(** Loading the module evaluates [new CopilotRuntime({agents: ...})]. *)
Definition load (w : World) : Live :=
  {| live_runtime := runtime; outside := w |}.

(** One invocation of [POST]: the binding [runtime] denotes the object as it
    is now. *)
Definition handle (impl : SharedImpl) (s : Live) (req : Request)
  : Outcome Error Response * Live :=
  let m := {| b_serviceAdapter := serviceAdapter; b_runtime := live_runtime s |} in
  let '(r, (rt', w')) := exec impl (body_of (POST m req)) (live_runtime s) (outside s) in
  (r, {| live_runtime := rt'; outside := w' |}).


(** The package leaves the runtime object it is handed as it is. *)
Definition keeps_runtime (impl : SharedImpl) : Prop :=
  forall X (c : Call Request Response Handler X) rt w, (impl X c (rt, w)).2.1 = rt.

(** A package that acts on the world outside only. *)
Definition outside_only (impl : Impl Request Response Handler World Error) : SharedImpl :=
  fun X c s => let '(r, w') := impl X c s.2 in (r, (s.1, w')).

End Shared.

Arguments Body : clear implicits.
Arguments Done {Request Response Handler A} a.
Arguments Pkg {Request Response Handler A X} c k.
Arguments Assign {Request Response Handler A} f k.
Arguments SharedImpl : clear implicits.
Arguments Live : clear implicits.

(** A package for trying the route: its handler registers one more agent in
    the runtime object it was handed. *)
Definition registering_package : SharedImpl string string unit nat string :=
  fun X c =>
    match c in Call _ _ _ X
          return CopilotRuntime * nat -> Outcome string X * (CopilotRuntime * nat) with
    | copilotRuntimeNextJSAppRouterEndpoint _ => fun s => (inr tt, s)
    | handleRequest _ req =>
        fun s =>
          (inr req,
           ({| agents := <[ "other" := {| url := "http://localhost:9000" |} ]> (agents s.1) |},
            S s.2))
    end.

End Shared.


(** ** Elements, hooks and the life of a component instance *)

Module React.

(** One entry of the [suggestions] property of the chat component. *)
Record Suggestion := { title : string; message : string }.

Record Labels := { initial : string }.

(** The properties the pages give to [<CopilotChat>]. *)
Record CopilotChatProps := {
  chat_className : string;
  labels : Labels;
  suggestions : list Suggestion
}.

(** The properties the pages and the layout give to [<CopilotKit>]; a
    property that is not written, or whose value is [undefined], is [None]. *)
Record CopilotKitProps := {
  runtimeUrl : option string;
  showDevConsole : option bool;
  agent : option string
}.

(** What an event handler may do to the state cells of the component. *)
Definition Update : Type := list string -> list string.

(** Element trees. A host element ([div], [html], [body]) has string
    attributes ([style={{ background }}] is the attribute
    ["style.background"]), event handlers and children; the two external
    components carry their properties. *)
#[warnings="-register-all"] Inductive Element : Type :=
| Text (s : string)
| Host (tag : string) (attrs : list (string * string))
       (handlers : list (string * Update)) (children : list Element)
| CopilotKit (props : CopilotKitProps) (children : list Element)
| CopilotChat (props : CopilotChatProps).

(** The state cells of a component instance and the index of the next hook
    call of the current render. *)
Record Hooks := { cells : list string; cursor : nat }.

Definition Render (A : Type) : Type := Hooks -> A * Hooks.

#[export] Instance render_ret : MRet Render := fun A a h => (a, h).
#[export] Instance render_bind : MBind Render :=
  fun A B f m h => let '(a, h') := m h in f a h'.

(** [useState(init)]: the first render allocates a cell holding [init], a
    later render reads the cell; the setter writes that cell. *)
Definition useState (init : string) : Render (string * (string -> Update)) :=
  fun h =>
    let i := cursor h in
    let set := fun v cs => <[i := v]> cs in
    match cells h !! i with
    | Some v => ((v, set), {| cells := cells h; cursor := S i |})
    | None => ((init, set), {| cells := cells h ++ [init]; cursor := S i |})
    end.

(** Values of attribute [k] in an attribute list. *)
Definition attr (k : string) (attrs : list (string * string)) : list string :=
  map snd (List.filter (fun kv => String.eqb k (fst kv)) attrs).

(** The [<CopilotKit>] properties in a tree, outermost first. *)
Fixpoint providers (e : Element) : list CopilotKitProps :=
  match e with
  | Text _ => []
  | Host _ _ _ cs => flat_map providers cs
  | CopilotKit p cs => p :: flat_map providers cs
  | CopilotChat _ => []
  end.

(** The [<CopilotChat>] properties in a tree. *)
Fixpoint chats (e : Element) : list CopilotChatProps :=
  match e with
  | Text _ => []
  | Host _ _ _ cs => flat_map chats cs
  | CopilotKit _ cs => flat_map chats cs
  | CopilotChat p => [p]
  end.

(** The [background] styles in a tree. *)
Fixpoint backgrounds (e : Element) : list string :=
  match e with
  | Text _ => []
  | Host _ attrs _ cs => attr "style.background" attrs ++ flat_map backgrounds cs
  | CopilotKit _ cs => flat_map backgrounds cs
  | CopilotChat _ => []
  end.

(** The event handlers a tree installs. *)
Fixpoint handlers_of (e : Element) : list (string * Update) :=
  match e with
  | Text _ => []
  | Host _ _ hs cs => hs ++ flat_map handlers_of cs
  | CopilotKit _ cs => flat_map handlers_of cs
  | CopilotChat _ => []
  end.

(** The tree with the [runtimeUrl] of every provider replaced. *)
Fixpoint set_runtimeUrl (u : option string) (e : Element) : Element :=
  match e with
  | Text s => Text s
  | Host t a hs cs => Host t a hs (map (set_runtimeUrl u) cs)
  | CopilotKit p cs =>
      CopilotKit {| runtimeUrl := u;
                    showDevConsole := showDevConsole p;
                    agent := agent p |}
                 (map (set_runtimeUrl u) cs)
  | CopilotChat p => CopilotChat p
  end.

(** A caption is a host element whose only child is the given text. *)
Definition is_caption (text : string) (e : Element) : bool :=
  match e with
  | Host _ _ _ [Text s] => String.eqb s text
  | _ => false
  end.

(** The tree without its captions of the given text. *)
Fixpoint erase_captions (text : string) (e : Element) : Element :=
  let among :=
    fix among (cs : list Element) : list Element :=
      match cs with
      | [] => []
      | c :: cs' =>
          if is_caption text c then among cs'
          else erase_captions text c :: among cs'
      end in
  match e with
  | Text s => Text s
  | Host t a hs cs => Host t a hs (among cs)
  | CopilotKit p cs => CopilotKit p (among cs)
  | CopilotChat p => CopilotChat p
  end.

(** The chat components of a tree, each with the providers around it,
    innermost first; [ctx] is what is around the tree. *)
Fixpoint chat_scopes (ctx : list CopilotKitProps) (e : Element)
  : list (list CopilotKitProps * CopilotChatProps) :=
  match e with
  | Text _ => []
  | Host _ _ _ cs => flat_map (chat_scopes ctx) cs
  | CopilotKit p cs => flat_map (chat_scopes (p :: ctx)) cs
  | CopilotChat c => [(ctx, c)]
  end.

(** The providers of a tree, each with the providers around it, innermost
    first. *)
Fixpoint provider_scopes (ctx : list CopilotKitProps) (e : Element)
  : list (list CopilotKitProps * CopilotKitProps) :=
  match e with
  | Text _ => []
  | Host _ _ _ cs => flat_map (provider_scopes ctx) cs
  | CopilotKit p cs => (ctx, p) :: flat_map (provider_scopes (p :: ctx)) cs
  | CopilotChat _ => []
  end.

(** *** Life of a component instance *)

(** An instance is the tree of its last render and its state cells. *)
Definition Instance_ : Type := Element * list string.

Definition render_with (c : Render Element) (cs : list string) : Instance_ :=
  let '(t, h) := c {| cells := cs; cursor := 0 |} in (t, cells h).

Definition mount (c : Render Element) : Instance_ := render_with c [].

(** After mounting, the instance is rendered again, or an event fires the
    handler of that name in the current tree, which updates the cells and
    causes a render; an event without a handler does nothing. *)
Inductive UiEvent : Type :=
| Rerender
| Fire (name : string).

Definition find_handler (name : string) (hs : list (string * Update)) : option Update :=
  snd <$> List.find (fun kv => String.eqb name (fst kv)) hs.

Definition dispatch (c : Render Element) (st : Instance_) (ev : UiEvent) : Instance_ :=
  match ev with
  | Rerender => render_with c (snd st)
  | Fire name =>
      match find_handler name (handlers_of (fst st)) with
      | Some f => render_with c (f (snd st))
      | None => st
      end
  end.

Definition lifetime (c : Render Element) (evs : list UiEvent) : Instance_ :=
  foldl (dispatch c) (mount c) evs.

End React.

(** ** The page that takes its runtime URL from the environment *)

Module AltPage.
Import React.

Definition Chat : Render Element :=
  '(background, _) ← useState "var(--copilot-kit-background-color)";
  mret
    (Host "div"
       [("className", "flex justify-center items-center h-full w-full");
        ("data-testid", "background-container");
        ("style.background", background)] []
       [Host "div" [("className", "h-full w-full md:w-8/10 md:h-8/10 rounded-lg")] []
          [Host "div" [("className", "text-sm font-semibold mb-2 ml-2 text-gray-400")] []
             [Text "Sample suggestions:"];
           CopilotChat
             {| chat_className := "h-full rounded-2xl max-w-6xl mx-auto";
                labels :=
                  {| initial :=
                       "Please enter a hospital name to find its CCN or a NPI to find the hospital type." |};
                suggestions :=
                  [ {| title := "Find CCN for Bayonne Medical Center";
                       message := "Find CCN for Bayonne Medical Center" |};
                    {| title := "Find hospital type for 1104144641";
                       message := "Find hospital type for 1104144641" |} ] |}]]).

(** [env] is [process.env]. [<Chat />] is the only component below the
    provider and [Page] has no hook of its own, so the hook state of the page
    is that of its [Chat]. *)
Definition Page (env : gmap string string) : Render Element :=
  chat ← Chat;
  mret
    (CopilotKit
       {| runtimeUrl := env !! "NEXT_PUBLIC_API_BASE_URL";
          showDevConsole := Some false;
          agent := Some "my_agent" |}
       [chat]).

End AltPage.

(** ** The root layout *)

Module Layout.
Import React.

Definition RootLayout (children : list Element) : Element :=
  Host "html" [("lang", "en")] []
    [Host "body" [("className", "antialiased")] []
       [CopilotKit
          {| runtimeUrl := Some "/api/copilotkit";
             showDevConsole := None;
             agent := Some "my_agent" |}
          children]].

End Layout.

(** ** The page that targets the local proxy path *)

Module ProxyPage.
Import React.

Definition Chat : Render Element :=
  '(background, setBackground) ← useState "var(--copilot-kit-background-color)";
  mret
    (Host "div"
       [("className", "flex justify-center items-center h-full w-full");
        ("data-testid", "background-container");
        ("style.background", background)] []
       [Host "div" [("className", "h-full w-full md:w-8/10 md:h-8/10 rounded-lg")] []
          [CopilotChat
             {| chat_className := "h-full rounded-2xl max-w-6xl mx-auto";
                labels :=
                  {| initial :=
                       "Please enter a hospital name to find its CCN or a NPI to find the hospital type." |};
                suggestions :=
                  [ {| title := "Find CCN for Bayonne Medical Center";
                       message := "Find CCN for Bayonne Medical Center" |};
                    {| title := "Find hospital type for 1104144641";
                       message := "Find hospital type for 1104144641" |} ] |}]]).

Definition Page : Render Element :=
  chat ← Chat;
  mret
    (CopilotKit
       {| runtimeUrl := Some "/api/copilotkit";
          showDevConsole := Some false;
          agent := Some "my_agent" |}
       [chat]).

End ProxyPage.

(** ** A deployment: everything a run creates, under an environment *)

Module App.
Import React.

(** The name of the environment variable the alternate page reads. *)
Definition base_url_var : string := "NEXT_PUBLIC_API_BASE_URL".

Record Deployment := {
  server : Route.Bindings;
  layout : list Element -> Element;
  page : Render Element;
  alternate_page : Render Element
}.

(** [route.ts], the layout and the proxy page do not read [process.env];
    the alternate page does. *)
Definition deploy (env : gmap string string) : Deployment :=
  {| server := Route.module_load;
     layout := Layout.RootLayout;
     page := ProxyPage.Page;
     alternate_page := AltPage.Page env |}.

(** The remote URLs the server forwards to. *)
Definition remote_targets (d : Deployment) : list string :=
  (fun na => Route.url (snd na)) <$> map_to_list (Route.agents (Route.b_runtime (server d))).

(** The runtime URLs a tree gives to its providers. *)
Definition runtime_targets (e : Element) : list (option string) :=
  runtimeUrl <$> providers e.

(** [needle] occurs in [hay]. *)
Fixpoint contains (needle hay : string) : bool :=
  String.prefix needle hay ||
  match hay with
  | EmptyString => false
  | String _ hay' => contains needle hay'
  end.

(** The URL is on the [onrender.com] domain. *)
Definition onrender_origin (u : string) : bool := contains "onrender.com" u.

(** The provider targets an [onrender.com] origin. *)
Definition onrender_target (p : CopilotKitProps) : bool :=
  match runtimeUrl p with
  | Some u => onrender_origin u
  | None => false
  end.

End App.

(** * Properties *)

(** ** The route *)

Section RouteFacts.
Import Route.
Context {Request Response Handler World Error : Type}.

Local Abbreviation Impl' := (Impl Request Response Handler World Error).

Implicit Types (impl : Impl') (m : Bindings) (req : Request) (w : World).

(** The options [POST] builds from the module bindings. *)
Lemma POST_unfold m req :
  POST (Handler := Handler) (Response := Response) m req =
  Vis (copilotRuntimeNextJSAppRouterEndpoint
         {| opt_runtime := b_runtime m;
            opt_serviceAdapter := b_serviceAdapter m;
            opt_endpoint := "/api/copilotkit" |})
      (fun h => Vis (handleRequest h req) Ret).
Proof. reflexivity. Qed.

(** Serving a request leaves the module bindings as they were. *)
Lemma serve_bindings impl (p : Process World) req :
  bindings (serve impl p req).2 = bindings p.
Proof.
  unfold serve.
  destruct (run impl (POST (bindings p) req) (world p)) as [[r w'] log].
  reflexivity.
Qed.

Lemma serve_all_bindings impl (reqs : list Request) (p : Process World) :
  bindings (serve_all impl p reqs) = bindings p.
Proof.
  revert p. induction reqs as [|req reqs IH]; intros p; [reflexivity|].
  unfold serve_all in *. cbn [foldl]. rewrite IH. apply serve_bindings.
Qed.


(** What a run of [POST] is, call by call. *)
Lemma run_POST impl m req w :
  let c1 := copilotRuntimeNextJSAppRouterEndpoint
              {| opt_runtime := b_runtime m;
                 opt_serviceAdapter := b_serviceAdapter m;
                 opt_endpoint := "/api/copilotkit" |} in
  run impl (POST m req) w =
  match impl _ c1 w with
  | (inl e, w1) => (inl e, w1, [any_call c1])
  | (inr h, w1) =>
      (impl _ (handleRequest h req) w1, [any_call c1; any_call (handleRequest h req)])
  end.
Proof.
  cbn zeta. rewrite POST_unfold. cbn [run].
  destruct (impl _ _ w) as [[e|h] w1]; [reflexivity|].
  destruct (impl _ (handleRequest h req) w1) as [[e|r] w2]; reflexivity.
Qed.

(** C4. Whatever the external package does: when the endpoint constructor
    answers with a handler, [POST] makes one call of that handler, on the
    request it received, and its outcome is the outcome of that call, a value
    or a failure alike, in the world that call left; when the constructor
    throws, [POST] fails with that error. No other call is made. *)
Theorem POST_returns_handleRequest impl m req w :
  let c1 := copilotRuntimeNextJSAppRouterEndpoint
              {| opt_runtime := b_runtime m;
                 opt_serviceAdapter := b_serviceAdapter m;
                 opt_endpoint := "/api/copilotkit" |} in
  match impl _ c1 w with
  | (inr h, w1) =>
      (run impl (POST m req) w).1 = impl _ (handleRequest h req) w1
      /\ (run impl (POST m req) w).2 = [any_call c1; any_call (handleRequest h req)]
  | (inl e, w1) =>
      (run impl (POST m req) w).1 = (inl e, w1)
      /\ (run impl (POST m req) w).2 = [any_call c1]
  end.
Proof.
  cbn zeta. rewrite run_POST.
  destruct (impl _ _ w) as [[e|h] w1]; split; reflexivity.
Qed.

End RouteFacts.

(** ** The registration, with the runtime object handed by reference *)

Section SharedFacts.
Import Route Shared.
Context {Request Response Handler World Error : Type}.

Local Abbreviation SharedImpl' := (SharedImpl Request Response Handler World Error).

Implicit Types (impl : SharedImpl') (s : Live World) (req : Request) (w : World).
Implicit Types (rt : CopilotRuntime) (reqs : list Request).




(** A package that acts on the world outside only keeps the object. *)
Lemma outside_only_keeps_runtime (impl0 : Impl Request Response Handler World Error) :
  keeps_runtime (outside_only impl0).
Proof.
  intros X c rt w. unfold outside_only. cbn.
  destruct (impl0 X c w) as [r w']. reflexivity.
Qed.

End SharedFacts.


(** The condition on the package is needed: a package whose handler
    registers one more agent in the object it was handed leaves two agents
    after one request. *)
Example registering_package_changes_registration :
  size (Route.agents
          (Shared.live_runtime
             (Shared.handle Shared.registering_package (Shared.load 0) "hello").2)) = 2.
Proof. vm_compute. reflexivity. Qed.

(** And so is the absence of a write in [POST]: a body that empties the
    registration before calling the package leaves it empty, with a package
    that keeps the object. *)
Example assignment_changes_registration :
  let body :=
    Shared.Assign (fun _ => {| Route.agents := ∅ |})
      (Shared.body_of (Route.POST Route.module_load "hello")) in
  (Shared.exec (Shared.outside_only Calls.unreachable_package) body Route.runtime 0).2.1
  = {| Route.agents := ∅ |}.
Proof. vm_compute. reflexivity. Qed.

(** ** The route against the runtime of the specification *)

Section ForwardingFacts.
Import Route.
Context {Request Response Error : Type}.

Implicit Types (remote : string -> Request -> Outcome Error Response).
Implicit Types (unanswered : Outcome Error Response).
Implicit Types (req : Request) (net : list (Outbound Request)).

(** On the registration of the route, forwarding is one call to the one
    registered URL. *)
Lemma forward_runtime remote unanswered req net :
  forward remote unanswered runtime req net =
  (remote "https://adkbotbackend.onrender.com" req,
   net ++ [{| to := "https://adkbotbackend.onrender.com"; payload := req |}]).
Proof.
  unfold forward, runtime; cbn [agents].
  rewrite map_to_list_singleton. reflexivity.
Qed.

(** C3. With the external runtime as the specification describes it, and
    whatever requests were served before: serving a [POST] adds exactly one
    call to the network, to https://adkbotbackend.onrender.com, whose payload
    is the request as it came in; the answer is the remote's answer. *)
Theorem POST_one_outbound_call remote unanswered (earlier : list Request) net req :
  let impl := spec_runtime remote unanswered in
  let p := serve_all impl (boot net) earlier in
  world (serve impl p req).2 =
    world p ++ [{| to := "https://adkbotbackend.onrender.com"; payload := req |}]
  /\ (serve impl p req).1 = remote "https://adkbotbackend.onrender.com" req.
Proof.
  intros impl p.
  pose proof (serve_all_bindings impl earlier (boot net)) as Hb.
  fold p in Hb. destruct p as [b wp]. cbn in Hb. subst b.
  unfold serve. rewrite run_POST. cbn.
  rewrite forward_runtime. cbn. split; reflexivity.
Qed.

End ForwardingFacts.

(** ** The pages *)

Section PageFacts.
Import React App.

Implicit Types (env : gmap string string) (h : Hooks) (evs : list UiEvent).

(** Unfolds one render of a page or of its chat component, by cases on
    whether the state cell exists already. *)
Ltac render_cases h :=
  unfold AltPage.Page, ProxyPage.Page, AltPage.Chat, ProxyPage.Chat,
    mbind, mret, render_bind, render_ret, useState;
  destruct (cells h !! cursor h); cbn.

(** C5. Whatever the environment and the hook state, each page variant gives
    the chat component exactly the two configured suggestions, "Find CCN for
    Bayonne Medical Center" first and "Find hospital type for 1104144641"
    second, and in each the title is the message. *)
Theorem suggestions_configured env h :
  let configured :=
    [ {| title := "Find CCN for Bayonne Medical Center";
         message := "Find CCN for Bayonne Medical Center" |};
      {| title := "Find hospital type for 1104144641";
         message := "Find hospital type for 1104144641" |} ] in
  suggestions <$> chats (AltPage.Page env h).1 = [configured]
  /\ suggestions <$> chats (ProxyPage.Page h).1 = [configured]
  /\ length configured = 2
  /\ Forall (fun s => title s = message s) configured.
Proof.
  cbn zeta. split; [|split; [|split]].
  - render_cases h; reflexivity.
  - render_cases h; reflexivity.
  - reflexivity.
  - repeat constructor.
Qed.

(** C1. The layout around either page variant: the layout's provider and the
    page's provider are both given the agent "my_agent", and "my_agent" is the
    key, the only one, registered in the agent map of the server route. The
    layout's own provider has that agent whatever its children are. *)
Theorem agent_identifier_consistent env h (children : list Element) :
  agent <$> providers (Layout.RootLayout [(AltPage.Page env h).1])
    = [Some "my_agent"; Some "my_agent"]
  /\ agent <$> providers (Layout.RootLayout [(ProxyPage.Page h).1])
    = [Some "my_agent"; Some "my_agent"]
  /\ agent <$> head (providers (Layout.RootLayout children)) = Some (Some "my_agent")
  /\ dom (Route.agents Route.runtime) = {[ "my_agent" ]}
  /\ Forall (fun p => exists a, agent p = Some a /\ a ∈ dom (Route.agents Route.runtime))
       (providers (Layout.RootLayout [(AltPage.Page env h).1])
        ++ providers (Layout.RootLayout [(ProxyPage.Page h).1])).
Proof.
  assert (Hdom : dom (Route.agents Route.runtime) = {[ "my_agent" ]})
    by apply dom_singleton_L.
  split; [render_cases h; reflexivity|].
  split; [render_cases h; reflexivity|].
  split; [reflexivity|].
  split; [exact Hdom|].
  rewrite Hdom.
  render_cases h; repeat constructor; eexists; (split; [reflexivity|set_solver]).
Qed.

(** An instance that every event leaves as it is stays as it was mounted. *)
Lemma lifetime_fixed (c : Render Element) evs :
  (forall ev, dispatch c (mount c) ev = mount c) ->
  lifetime c evs = mount c.
Proof.
  intros Hfix. unfold lifetime.
  induction evs as [|ev evs IH] using rev_ind; [reflexivity|].
  rewrite foldl_app. cbn [foldl]. rewrite IH. apply Hfix.
Qed.

Lemma AltPage_Chat_stable ev :
  dispatch AltPage.Chat (mount AltPage.Chat) ev = mount AltPage.Chat.
Proof. destruct ev; reflexivity. Qed.

Lemma ProxyPage_Chat_stable ev :
  dispatch ProxyPage.Chat (mount ProxyPage.Chat) ev = mount ProxyPage.Chat.
Proof. destruct ev; reflexivity. Qed.

(** C8. In the chat component of either page, through any sequence of
    renders and events after mounting: the state is one cell, it holds
    "var(--copilot-kit-background-color)", the value it was initialised with,
    and that is the background of the rendered tree; the tree installs no
    handler that could change it. *)
Theorem background_never_changes evs :
  let init := "var(--copilot-kit-background-color)" in
  (lifetime AltPage.Chat evs).2 = [init]
  /\ backgrounds (lifetime AltPage.Chat evs).1 = [init]
  /\ handlers_of (lifetime AltPage.Chat evs).1 = []
  /\ (lifetime ProxyPage.Chat evs).2 = [init]
  /\ backgrounds (lifetime ProxyPage.Chat evs).1 = [init]
  /\ handlers_of (lifetime ProxyPage.Chat evs).1 = [].
Proof.
  cbn zeta.
  rewrite (lifetime_fixed _ evs AltPage_Chat_stable).
  rewrite (lifetime_fixed _ evs ProxyPage_Chat_stable).
  repeat split; reflexivity.
Qed.

(** The provider of each page variant. *)
Lemma AltPage_providers env h :
  providers (AltPage.Page env h).1 =
  [ {| runtimeUrl := env !! base_url_var;
       showDevConsole := Some false;
       agent := Some "my_agent" |} ].
Proof. render_cases h; reflexivity. Qed.

Lemma ProxyPage_providers h :
  providers (ProxyPage.Page h).1 =
  [ {| runtimeUrl := Some "/api/copilotkit";
       showDevConsole := Some false;
       agent := Some "my_agent" |} ].
Proof. render_cases h; reflexivity. Qed.

(** C10. From the same hook state, the two page variants give the chat
    component the same properties (the same initial label and the same
    suggestions, entry by entry), give the provider the same agent "my_agent"
    and the same [showDevConsole], and leave the same hook state. The
    [runtimeUrl] is the environment's value in one and "/api/copilotkit" in
    the other; with the [runtimeUrl] made equal, the tree of the first without
    its caption "Sample suggestions:" is the tree of the second, which has no
    such caption. *)
Theorem page_variants_differ_only_in_url_and_caption env h :
  chats (AltPage.Page env h).1 = chats (ProxyPage.Page h).1
  /\ agent <$> providers (AltPage.Page env h).1 = [Some "my_agent"]
  /\ agent <$> providers (ProxyPage.Page h).1 = [Some "my_agent"]
  /\ showDevConsole <$> providers (AltPage.Page env h).1
     = showDevConsole <$> providers (ProxyPage.Page h).1
  /\ (AltPage.Page env h).2 = (ProxyPage.Page h).2
  /\ runtime_targets (AltPage.Page env h).1 = [env !! "NEXT_PUBLIC_API_BASE_URL"]
  /\ runtime_targets (ProxyPage.Page h).1 = [Some "/api/copilotkit"]
  /\ (forall u, erase_captions "Sample suggestions:" (set_runtimeUrl u (AltPage.Page env h).1)
               = set_runtimeUrl u (ProxyPage.Page h).1)
  /\ erase_captions "Sample suggestions:" (ProxyPage.Page h).1 = (ProxyPage.Page h).1
  /\ erase_captions "Sample suggestions:" (AltPage.Page env h).1 <> (AltPage.Page env h).1.
Proof.
  unfold runtime_targets. rewrite AltPage_providers, ProxyPage_providers.
  repeat split; try reflexivity; try (render_cases h; first [reflexivity | discriminate]).
Qed.

(** C6. Two runs under any two environments: the server's bindings, and so
    the remote URL it forwards to, are the same; the layout is the same; the
    proxy page is the same; the alternate page renders trees that are equal
    once their [runtimeUrl] is made equal, and its [runtimeUrl] is, in each
    run, the value of [NEXT_PUBLIC_API_BASE_URL] in that run's environment, so
    that it differs between the runs exactly when that value does. *)
Theorem base_url_changes_only_alternate_page (env1 env2 : gmap string string) h :
  server (deploy env1) = server (deploy env2)
  /\ remote_targets (deploy env1) = ["https://adkbotbackend.onrender.com"]
  /\ remote_targets (deploy env2) = ["https://adkbotbackend.onrender.com"]
  /\ layout (deploy env1) = layout (deploy env2)
  /\ page (deploy env1) = page (deploy env2)
  /\ runtime_targets (page (deploy env1) h).1 = [Some "/api/copilotkit"]
  /\ runtime_targets (page (deploy env2) h).1 = [Some "/api/copilotkit"]
  /\ runtime_targets (alternate_page (deploy env1) h).1 = [env1 !! base_url_var]
  /\ runtime_targets (alternate_page (deploy env2) h).1 = [env2 !! base_url_var]
  /\ (forall u, set_runtimeUrl u (alternate_page (deploy env1) h).1
               = set_runtimeUrl u (alternate_page (deploy env2) h).1)
  /\ (alternate_page (deploy env1) h).2 = (alternate_page (deploy env2) h).2
  /\ (runtime_targets (alternate_page (deploy env1) h).1
       = runtime_targets (alternate_page (deploy env2) h).1
     <-> env1 !! base_url_var = env2 !! base_url_var).
Proof.
  unfold runtime_targets, remote_targets. cbn [deploy server layout page alternate_page].
  rewrite !AltPage_providers, !ProxyPage_providers.
  cbn [Route.module_load Route.b_runtime Route.runtime Route.agents].
  rewrite map_to_list_singleton.
  do 9 (split; [reflexivity|]).
  split; [intros u; render_cases h; reflexivity|].
  split; [render_cases h; reflexivity|].
  cbn. split; [intros [= ->]|intros ->]; reflexivity.
Qed.

(** C7, as amended. The two page variants are near duplicates, with the same
    chat configuration, and their targets diverge: one hard-codes the relative
    proxy path "/api/copilotkit"; the other hard-codes no URL, its target is
    the value of [NEXT_PUBLIC_API_BASE_URL] in the environment, undefined when
    the variable is unset, and so an [onrender.com] origin exactly when the
    environment supplies one. *)
Theorem page_variants_targets env h :
  chats (AltPage.Page env h).1 = chats (ProxyPage.Page h).1
  /\ runtime_targets (ProxyPage.Page h).1 = [Some "/api/copilotkit"]
  /\ runtime_targets (AltPage.Page env h).1 = [env !! "NEXT_PUBLIC_API_BASE_URL"]
  /\ existsb onrender_target (providers (ProxyPage.Page h).1) = false
  /\ existsb onrender_target (providers (AltPage.Page env h).1)
     = match env !! "NEXT_PUBLIC_API_BASE_URL" with
       | Some u => onrender_origin u
       | None => false
       end.
Proof.
  unfold runtime_targets. rewrite AltPage_providers, ProxyPage_providers.
  split; [render_cases h; reflexivity|].
  split; [reflexivity|]. split; [reflexivity|]. split; [reflexivity|].
  cbn. unfold onrender_target, base_url_var; cbn.
  destruct (env !! "NEXT_PUBLIC_API_BASE_URL"); [apply orb_false_r|reflexivity].
Qed.

End PageFacts.

(** C7, as stated, fails: with [NEXT_PUBLIC_API_BASE_URL] set to
    "http://localhost:8000", the target of the environment page is that URL,
    which is not an [onrender.com] origin, and no provider of the layout or of
    either page targets an [onrender.com] origin. *)
Lemma no_page_hard_codes_onrender :
  App.runtime_targets
    (React.mount (AltPage.Page {[ "NEXT_PUBLIC_API_BASE_URL" := "http://localhost:8000" ]})).1
    = [Some "http://localhost:8000"]
  /\ App.onrender_origin "http://localhost:8000" = false
  /\ existsb App.onrender_target
       (React.providers
          (Layout.RootLayout
             [ (React.mount
                  (AltPage.Page {[ "NEXT_PUBLIC_API_BASE_URL" := "http://localhost:8000" ]})).1;
               (React.mount ProxyPage.Page).1 ])) = false.
Proof. repeat split; vm_compute; reflexivity. Qed.

(** ** Concrete runs *)

(** A remote that answers with the URL it was called at followed by the
    payload: one request, one call, the payload as it came in. *)
Example serve_echo :
  let remote := fun (u req : string) => inr (u +:+ " got " +:+ req) : Route.Outcome string string in
  Route.serve (Route.spec_runtime remote (inl "no agent")) (Route.boot []) "hello" =
  (inr "https://adkbotbackend.onrender.com got hello",
   {| Route.bindings := Route.module_load;
      Route.world :=
        [ {| Route.to := "https://adkbotbackend.onrender.com"; Route.payload := "hello" |} ] |}).
Proof. vm_compute. reflexivity. Qed.

(** A package whose handler always throws: the error comes out of [POST]
    as it is, after one attempt. *)
Example run_failing_handler :
  let impl : Route.Impl string string unit nat string :=
    fun X c =>
      match c in Route.Call _ _ _ X return nat -> Route.Outcome string X * nat with
      | Route.copilotRuntimeNextJSAppRouterEndpoint _ => fun n => (inr tt, n)
      | Route.handleRequest _ _ => fun n => (inl "remote agent unreachable", S n)
      end in
  exists log,
    Route.run impl (Route.POST Route.module_load "hello") 0
      = (inl "remote agent unreachable", 1, log)
    /\ length log = 2.
Proof. eexists. split; [vm_compute; reflexivity|reflexivity]. Qed.

(** Mounting the environment page with the variable unset: the provider gets
    no runtime URL. *)
Example mount_alt_unset :
  App.runtime_targets (React.mount (AltPage.Page ∅)).1 = [None].
Proof. vm_compute. reflexivity. Qed.

(** ** The server over a sequence of requests *)

Section ServerFacts.
Import Route Calls.
Context {Request Response Handler World Error : Type}.

Local Abbreviation Impl' := (Impl Request Response Handler World Error).

Implicit Types (impl : Impl') (p : Process World) (req : Request) (w : World).
Implicit Types (reqs : list Request).

(** The calls of one [POST] of a freshly loaded module. *)
Lemma POST_calls impl req w :
  let log := (run impl (POST module_load req) w).2 in
  constructed log =
    [ {| opt_runtime := runtime;
         opt_serviceAdapter := serviceAdapter;
         opt_endpoint := "/api/copilotkit" |} ]
  /\ (handled log = [req] \/ handled log = []).
Proof.
  cbn zeta. rewrite run_POST. cbn [module_load b_runtime b_serviceAdapter].
  destruct (impl _ _ w) as [[e|h] w1]; cbn; auto.
Qed.

Lemma POST_calls_handled impl req w h w1 :
  impl _ (copilotRuntimeNextJSAppRouterEndpoint
            {| opt_runtime := runtime;
               opt_serviceAdapter := serviceAdapter;
               opt_endpoint := "/api/copilotkit" |}) w = (inr h, w1) ->
  handled (run impl (POST module_load req) w).2 = [req].
Proof.
  intros Hc. rewrite run_POST. cbn [module_load b_runtime b_serviceAdapter].
  rewrite Hc. reflexivity.
Qed.


Lemma handled_app (l1 l2 : list (AnyCall Request Response Handler)) :
  handled (l1 ++ l2) = handled l1 ++ handled l2.
Proof. apply omap_app. Qed.


(** X2. When the endpoint constructor of the external package does not
    throw, every request is given to a handler exactly once, in the order the
    requests came in, also after requests whose handler failed. *)
Theorem every_request_handled impl w reqs :
  (forall o w0, exists h w1,
      impl _ (copilotRuntimeNextJSAppRouterEndpoint o) w0 = (inr h, w1)) ->
  handled (calls_of impl (boot w) reqs) = reqs.
Proof.
  intros Hctor.
  generalize (boot w) (eq_refl : bindings (boot w) = module_load).
  induction reqs as [|req reqs IH]; intros p Hp; [reflexivity|].
  cbn [calls_of]. rewrite handled_app, Hp.
  destruct (Hctor {| opt_runtime := runtime;
                     opt_serviceAdapter := serviceAdapter;
                     opt_endpoint := "/api/copilotkit" |} (world p)) as (h & w1 & Hc).
  rewrite (POST_calls_handled impl req _ h w1 Hc).
  pose proof (IH (serve impl p req).2) as IH'.
  rewrite serve_bindings, Hp in IH'. specialize (IH' eq_refl).
  rewrite IH'. reflexivity.
Qed.

End ServerFacts.

Lemma every_request_handled_witness :
  (forall o w0, exists h w1,
      Calls.unreachable_package _ (Route.copilotRuntimeNextJSAppRouterEndpoint o) w0
      = (inr h, w1))
  /\ Calls.handled (Calls.calls_of Calls.unreachable_package (Route.boot 0) ["first"; "second"])
     = ["first"; "second"].
Proof.
  split.
  - intros o w0. exists tt, w0. reflexivity.
  - apply (every_request_handled Calls.unreachable_package 0 ["first"; "second"]).
    intros o w0. exists tt, w0. reflexivity.
Defined.

(** ** The layout around the pages, and the pages in any state *)

Section CompositionFacts.
Import React App.

Implicit Types (env : gmap string string) (h : Hooks) (evs : list UiEvent).
Implicit Types (cs : list string) (children : list Element).

Ltac render_cases h :=
  unfold AltPage.Page, ProxyPage.Page, AltPage.Chat, ProxyPage.Chat,
    mbind, mret, render_bind, render_ret, useState;
  destruct (cells h !! cursor h); cbn.

(** X3. Whatever its children and whatever is around it, the layout puts
    the children below exactly one provider of its own, targeting
    "/api/copilotkit" with agent "my_agent": that provider has around it what
    the layout has, and every provider and every chat component of the
    children has it around itself, innermost. The layout adds nothing else:
    the providers, chat components, backgrounds and event handlers of the
    children are those of the whole tree, in order. *)
Theorem layout_wraps_children children (ctx : list CopilotKitProps) :
  let own := {| runtimeUrl := Some "/api/copilotkit";
                showDevConsole := None;
                agent := Some "my_agent" |} in
  provider_scopes ctx (Layout.RootLayout children)
    = (ctx, own) :: flat_map (provider_scopes (own :: ctx)) children
  /\ chat_scopes ctx (Layout.RootLayout children)
    = flat_map (chat_scopes (own :: ctx)) children
  /\ providers (Layout.RootLayout children) = own :: flat_map providers children
  /\ chats (Layout.RootLayout children) = flat_map chats children
  /\ backgrounds (Layout.RootLayout children) = flat_map backgrounds children
  /\ handlers_of (Layout.RootLayout children) = flat_map handlers_of children.
Proof.
  cbn. rewrite !app_nil_r. repeat split; reflexivity.
Qed.

(** X4. Below the layout each page brings a second provider, nested in the
    layout's: the layout's provider has none around it, the page's provider
    has the layout's around it, and the chat component has the page's
    provider around it and then the layout's. For the proxy page both
    providers target "/api/copilotkit"; for the environment page the outer
    one targets "/api/copilotkit" and the inner one the value of
    [NEXT_PUBLIC_API_BASE_URL], so the two agree exactly when that value is
    "/api/copilotkit". *)
Theorem nested_provider_targets env h :
  let targets := fun sp : list CopilotKitProps * CopilotKitProps =>
                   (runtimeUrl <$> sp.1, runtimeUrl sp.2) in
  let around := fun sc : list CopilotKitProps * CopilotChatProps =>
                  runtimeUrl <$> sc.1 in
  targets <$> provider_scopes [] (Layout.RootLayout [(ProxyPage.Page h).1])
    = [ ([], Some "/api/copilotkit");
        ([Some "/api/copilotkit"], Some "/api/copilotkit") ]
  /\ around <$> chat_scopes [] (Layout.RootLayout [(ProxyPage.Page h).1])
    = [ [Some "/api/copilotkit"; Some "/api/copilotkit"] ]
  /\ targets <$> provider_scopes [] (Layout.RootLayout [(AltPage.Page env h).1])
    = [ ([], Some "/api/copilotkit");
        ([Some "/api/copilotkit"], env !! "NEXT_PUBLIC_API_BASE_URL") ]
  /\ around <$> chat_scopes [] (Layout.RootLayout [(AltPage.Page env h).1])
    = [ [env !! "NEXT_PUBLIC_API_BASE_URL"; Some "/api/copilotkit"] ]
  /\ runtime_targets (Layout.RootLayout [(ProxyPage.Page h).1])
    = [Some "/api/copilotkit"; Some "/api/copilotkit"]
  /\ runtime_targets (Layout.RootLayout [(AltPage.Page env h).1])
    = [Some "/api/copilotkit"; env !! "NEXT_PUBLIC_API_BASE_URL"]
  /\ (Forall (fun t => t = Some "/api/copilotkit")
       (runtime_targets (Layout.RootLayout [(AltPage.Page env h).1]))
     <-> env !! "NEXT_PUBLIC_API_BASE_URL" = Some "/api/copilotkit").
Proof.
  cbn zeta.
  assert (Halt : runtime_targets (Layout.RootLayout [(AltPage.Page env h).1])
                 = [Some "/api/copilotkit"; env !! "NEXT_PUBLIC_API_BASE_URL"])
    by (render_cases h; reflexivity).
  do 5 (split; [render_cases h; reflexivity|]). split; [exact Halt|].
  rewrite Halt. split.
  - intros HF. inversion HF as [|? ? _ HF']. inversion HF' as [|? ? Hu _]. exact Hu.
  - intros ->. repeat constructor.
Qed.

(** X6. The environment page reads nothing of the environment but
    [NEXT_PUBLIC_API_BASE_URL]: under two environments that agree on that
    variable it renders the same tree and leaves the same hook state. *)
Theorem alt_page_reads_only_base_url (env1 env2 : gmap string string) h :
  env1 !! "NEXT_PUBLIC_API_BASE_URL" = env2 !! "NEXT_PUBLIC_API_BASE_URL" ->
  AltPage.Page env1 h = AltPage.Page env2 h.
Proof.
  intros Heq. render_cases h; rewrite Heq; reflexivity.
Qed.

(** X7. A render shows the stored background, not the initial literal: with
    cells [v :: cs] the background of the tree is [v] and the cells are left
    as they are; only without a cell is it the initial value, which is then
    stored. This holds for both chat components and both pages. *)
Theorem render_shows_stored_background env cs :
  let init := "var(--copilot-kit-background-color)" in
  Forall (fun c : Render Element =>
            backgrounds (render_with c cs).1 = [default init (head cs)]
            /\ (render_with c cs).2 = match cs with [] => [init] | _ => cs end)
         [AltPage.Chat; ProxyPage.Chat; AltPage.Page env; ProxyPage.Page].
Proof.
  cbn zeta. destruct cs as [|v cs]; repeat constructor.
Qed.

(** A state that no event changes is kept through any sequence of events. *)
Lemma foldl_dispatch_fixed (c : Render Element) (st : Instance_) evs :
  (forall ev, dispatch c st ev = st) -> foldl (dispatch c) st evs = st.
Proof.
  intros Hfix. induction evs as [|ev evs IH]; [reflexivity|].
  cbn [foldl]. rewrite Hfix. exact IH.
Qed.

(** X8. From any state cells, not only from those of a fresh mount: after a
    render, no sequence of renders and events changes the tree or the cells
    of either chat component or of either page; the trees install no
    handler. *)
Theorem no_event_changes_state env cs evs :
  Forall (fun c : Render Element =>
            foldl (dispatch c) (render_with c cs) evs = render_with c cs
            /\ handlers_of (render_with c cs).1 = [])
         [AltPage.Chat; ProxyPage.Chat; AltPage.Page env; ProxyPage.Page].
Proof.
  repeat constructor;
    try (apply foldl_dispatch_fixed; intros ev; destruct cs as [|v cs], ev; reflexivity);
    destruct cs as [|v cs]; reflexivity.
Qed.

End CompositionFacts.

Lemma alt_page_reads_only_base_url_witness :
  let env1 : gmap string string :=
    {[ "NEXT_PUBLIC_API_BASE_URL" := "https://a.onrender.com"; "NODE_ENV" := "production" ]} in
  let env2 : gmap string string :=
    {[ "NEXT_PUBLIC_API_BASE_URL" := "https://a.onrender.com" ]} in
  let h := {| React.cells := []; React.cursor := 0 |} in
  env1 !! "NEXT_PUBLIC_API_BASE_URL" = env2 !! "NEXT_PUBLIC_API_BASE_URL"
  /\ AltPage.Page env1 h = AltPage.Page env2 h.
Proof.
  cbn zeta. split.
  - vm_compute. reflexivity.
  - apply (alt_page_reads_only_base_url
             {[ "NEXT_PUBLIC_API_BASE_URL" := "https://a.onrender.com"; "NODE_ENV" := "production" ]}
             {[ "NEXT_PUBLIC_API_BASE_URL" := "https://a.onrender.com" ]}).
    vm_compute. reflexivity.
Defined.

(** ** The client's target and the server's endpoint *)

Section EndpointFacts.
Import Route Calls React App.
Context {Request Response Handler World Error : Type}.

(** X5. The path the route declares as its endpoint, each time it serves a
    request and whatever the external package does, is the runtime URL the
    proxy page gives its provider and the one the layout gives its own. *)
Theorem client_targets_server_endpoint
    (impl : Impl Request Response Handler World Error) (w : World)
    (earlier : list Request) (req : Request) (h : Hooks) (children : list Element) :
  let p := serve_all impl (boot w) earlier in
  let served := opt_endpoint <$> constructed (run impl (POST (bindings p) req) (world p)).2 in
  Some <$> served = runtime_targets (ProxyPage.Page h).1
  /\ head (Some <$> served) = head (runtime_targets (Layout.RootLayout children)).
Proof.
  intros p served. subst served.
  pose proof (serve_all_bindings impl earlier (boot w)) as Hb. fold p in Hb.
  rewrite Hb. cbn [boot bindings].
  destruct (POST_calls impl req (world p)) as [-> _].
  unfold runtime_targets. rewrite ProxyPage_providers. split; reflexivity.
Qed.

End EndpointFacts.
